(** * Verification of the [trackable] crate's macro layer (src/macros.rs)

    The crate's core types ([Location], [History], the [Trackable] trait,
    [TrackableError], [ErrorKindExt]) are not part of the verified sources;
    they are modelled below from the crate's specification.  The macros of
    [src/macros.rs] ([track!], [track_assert!], [track_assert_eq!],
    [track_assert_ne!], [track_assert_some!], [track_panic!],
    [track_try_unwrap!], [derive_traits_for_trackable_error_newtype!]) are
    embedded from the source. *)

From Stdlib Require Import String List Ascii Bool Arith Lia ZArith.
From Stdlib Require Import Floats.SpecFloat.
Import ListNotations.
Open Scope string_scope.

(** ** Strings *)

Definition nl : string := String (ascii_of_nat 10) EmptyString.

Fixpoint digits_of_nat (fuel n : nat) (acc : string) : string :=
  match fuel with
  | O => acc
  | S fuel' =>
      let d := String (ascii_of_nat (48 + n mod 10)) acc in
      if Nat.ltb n 10 then d else digits_of_nat fuel' (n / 10) d
  end.

(** Decimal rendering of an unsigned integer ([{}] on a [u32]). *)
Definition string_of_nat (n : nat) : string := digits_of_nat (S n) n "".

(** [sub] occurs inside [s]. *)
Definition contains (s sub : string) : Prop :=
  exists pre post, s = pre ++ sub ++ post.

(** One argument of [format!]: its [Display] and its [Debug] renderings. *)
Record fmt_arg := FmtArg { arg_display : string; arg_debug : string }.

(** The argument at position [i] of [format!]; [rustc] rejects a format
    string that refers to a missing one, rendered here as empty. *)
Definition nth_display (i : nat) (args : list fmt_arg) : string :=
  match nth_error args i with Some a => arg_display a | None => "" end.
Definition nth_debug (i : nat) (args : list fmt_arg) : string :=
  match nth_error args i with Some a => arg_debug a | None => "" end.

Definition digit_of (c : ascii) : option nat :=
  let n := nat_of_ascii c in
  if Nat.leb 48 n && Nat.leb n 57 then Some (n - 48) else None.

(** The state of the [format!] scanner: plain text, after [{], inside an
    explicit position [{n], after [:] and after [:?] (with the explicit
    position if any), after [}]. *)
Inductive fmt_state :=
| FsText
| FsOpen
| FsIndex (n : nat)
| FsColon (pos : option nat)
| FsDebug (pos : option nat)
| FsClose.

(** [format!] with the placeholders [{}], [{:?}], [{n}], [{n:?}] and the
    escapes [{{], [}}].  [next] is the position the next implicit
    placeholder takes (it is advanced by [{}] and [{:?}] only, as in Rust).
    Format strings that [rustc] rejects, and the fill, width, precision and
    named-argument specifications, which no format string of
    src/macros.rs uses, are outside this model: the scanner then drops back
    to plain text. *)
Fixpoint fmt_go (st : fmt_state) (s : string) (next : nat) (args : list fmt_arg) : string :=
  match s with
  | EmptyString => EmptyString
  | String c rest =>
      match st with
      | FsText =>
          if Ascii.eqb c "{" then fmt_go FsOpen rest next args
          else if Ascii.eqb c "}" then fmt_go FsClose rest next args
          else String c (fmt_go FsText rest next args)
      | FsOpen =>
          if Ascii.eqb c "{" then String "{" (fmt_go FsText rest next args)
          else if Ascii.eqb c "}" then
            nth_display next args ++ fmt_go FsText rest (S next) args
          else if Ascii.eqb c ":" then fmt_go (FsColon None) rest next args
          else match digit_of c with
               | Some d => fmt_go (FsIndex d) rest next args
               | None => fmt_go FsText rest next args
               end
      | FsIndex n =>
          if Ascii.eqb c "}" then nth_display n args ++ fmt_go FsText rest next args
          else if Ascii.eqb c ":" then fmt_go (FsColon (Some n)) rest next args
          else match digit_of c with
               | Some d => fmt_go (FsIndex (10 * n + d)) rest next args
               | None => fmt_go FsText rest next args
               end
      | FsColon pos =>
          if Ascii.eqb c "?" then fmt_go (FsDebug pos) rest next args
          else fmt_go FsText rest next args
      | FsDebug pos =>
          if Ascii.eqb c "}" then
            match pos with
            | None => nth_debug next args ++ fmt_go FsText rest (S next) args
            | Some n => nth_debug n args ++ fmt_go FsText rest next args
            end
          else fmt_go FsText rest next args
      | FsClose =>
          if Ascii.eqb c "}" then String "}" (fmt_go FsText rest next args)
          else fmt_go FsText rest next args
      end
  end.

(** The tail of a format string whose earlier placeholders consumed the
    first [next] implicit positions. *)
Definition format_from (next : nat) (fmt : string) (args : list fmt_arg) : string :=
  fmt_go FsText fmt next args.

Definition format (fmt : string) (args : list fmt_arg) : string := format_from 0 fmt args.

(** A [&str] (such as the output of [stringify!]) as a format argument. *)
Definition str_arg (s : string) : fmt_arg := FmtArg s s.

Example format_hello : format "Hello {}" [str_arg "World!"] = "Hello World!".
Proof. reflexivity. Qed.

Example format_positions :
  format "{1} {} {0:?} {{x}} {}" [FmtArg "a" "A"; FmtArg "b" "B"] = "b a A {x} b".
Proof. reflexivity. Qed.

(** ** Location and History *)

(** Modelled from the spec: [Location] (src/lib.rs is not among the sources). *)
Record Location := Location_new {
  module_path : string;
  file : string;
  line : nat;
  message : string
}.

(** Modelled from the spec: [Display for Location],
    ["at <file>:<line>"] with [" -- <message>"] when the message is not empty. *)
Definition render_location (l : Location) : string :=
  "at " ++ file l ++ ":" ++ string_of_nat (line l) ++
  (if String.eqb (message l) "" then "" else " -- " ++ message l).

(** Modelled from the spec: [History<Event>], an ordered event list and a
    recording mode. *)
Record History (Ev : Type) := History_mk {
  events : list Ev;
  enabled : bool
}.
Arguments History_mk {Ev}.
Arguments events {Ev}.
Arguments enabled {Ev}.

Definition History_new {Ev} (en : bool) : History Ev := History_mk [] en.

Definition add {Ev} (h : History Ev) (e : Ev) : History Ev :=
  if enabled h then History_mk (events h ++ [e]) true else h.

Definition enable {Ev} (h : History Ev) : History Ev := History_mk (events h) true.
Definition disable {Ev} (h : History Ev) : History Ev := History_mk (events h) false.

(** Modelled from the spec: [Display for History], a [HISTORY:] header and one
    line ["  [<index>] <event>"] per event; nothing at all for no events. *)
Fixpoint render_events (i : nat) (evs : list Location) : string :=
  match evs with
  | [] => ""
  | e :: evs' =>
      "  [" ++ string_of_nat i ++ "] " ++ render_location e ++ nl ++
      render_events (S i) evs'
  end.

Definition render_history (h : History Location) : string :=
  match events h with
  | [] => ""
  | evs => "HISTORY:" ++ nl ++ render_events 0 evs
  end.

(** ** The [Trackable] capability *)

(** A factory with side effects: a state transformer over the caller's state. *)
Definition St (S A : Type) := S -> A * S.

(** Modelled from the spec: the [Trackable] trait.  [history_mut] returns the
    history together with the write-back through the mutable reference. *)
Class Trackable (Ev T : Type) := {
  history : T -> option (History Ev);
  history_mut : T -> option (History Ev * (History Ev -> T));
  enable_tracking : T -> T;
  disable_tracking : T -> T
}.

(** Modelled from the spec: the provided method [Trackable::track].  Nothing
    happens, and the factory is not run, unless a history exists and is
    enabled; then the factory runs once and its event is appended. *)
Definition track {Ev T S} `{Trackable Ev T} (x : T) (f : St S Ev) : St S T :=
  fun s =>
    match history_mut x with
    | None => (x, s)
    | Some (h, put) =>
        if enabled h then
          let (e, s') := f s in (put (add h e), s')
        else (x, s)
    end.

(** Modelled from the spec: [impl<T: Trackable> Trackable for Option<T>]. *)
#[global] Instance Trackable_option {Ev T} `{Trackable Ev T} : Trackable Ev (option T) := {
  history o := match o with Some t => history t | None => None end;
  history_mut o :=
    match o with
    | Some t =>
        match history_mut t with
        | Some (h, put) => Some (h, fun h' => Some (put h'))
        | None => None
        end
    | None => None
    end;
  enable_tracking o := option_map enable_tracking o;
  disable_tracking o := option_map disable_tracking o
}.

(** Rust's [Result<T, E>]. *)
Inductive result (T E : Type) := Ok (v : T) | Err (e : E).
Arguments Ok {T E}.
Arguments Err {T E}.

(** Modelled from the spec: [impl<T, E: Trackable> Trackable for Result<T, E>]. *)
#[global] Instance Trackable_result {Ev T E} `{Trackable Ev E} : Trackable Ev (result T E) := {
  history r := match r with Err e => history e | Ok _ => None end;
  history_mut r :=
    match r with
    | Err e =>
        match history_mut e with
        | Some (h, put) => Some (h, fun h' => Err (put h'))
        | None => None
        end
    | Ok _ => None
    end;
  enable_tracking r := match r with Err e => Err (enable_tracking e) | Ok v => Ok v end;
  disable_tracking r := match r with Err e => Err (disable_tracking e) | Ok v => Ok v end
}.

(** ** [TrackableError<Kind>] *)

(** The [ErrorKind] capability: a debug rendering of the kind. *)
Class ErrorKind (K : Type) := { kind_debug : K -> string }.

(** Modelled from the spec: [TrackableError<Kind>]; the boxed cause is kept
    as its rendering, the event type is [Location]. *)
Record TrackableError (K : Type) := TrackableError_mk {
  kind : K;
  cause : option string;
  te_history : option (History Location)
}.
Arguments TrackableError_mk {K}.
Arguments kind {K}.
Arguments cause {K}.
Arguments te_history {K}.

(** Modelled from the spec: [impl Trackable for TrackableError<K>]. *)
#[global] Instance Trackable_TrackableError {K} : Trackable Location (TrackableError K) := {
  history e := te_history e;
  history_mut e :=
    match te_history e with
    | Some h => Some (h, fun h' => TrackableError_mk (kind e) (cause e) (Some h'))
    | None => None
    end;
  enable_tracking e := TrackableError_mk (kind e) (cause e) (option_map enable (te_history e));
  disable_tracking e := TrackableError_mk (kind e) (cause e) (option_map disable (te_history e))
}.

(** Modelled from the spec: [From<K> for TrackableError<K>] and
    [ErrorKindExt::error]: no cause, an empty enabled history. *)
Definition TrackableError_from_kind {K} (k : K) : TrackableError K :=
  TrackableError_mk k None (Some (History_new true)).

(** Modelled from the spec: [ErrorKindExt::cause]: the message as cause, an
    empty enabled history. *)
Definition kind_cause {K} (k : K) (msg : string) : TrackableError K :=
  TrackableError_mk k (Some msg) (Some (History_new true)).

(** Modelled from the spec: [Display for TrackableError<K>]. *)
Definition kind_line {K} `{ErrorKind K} (e : TrackableError K) : string :=
  kind_debug (kind e) ++
  match cause e with Some c => " (cause; " ++ c ++ ")" | None => "" end.

Definition render {K} `{ErrorKind K} (e : TrackableError K) : string :=
  kind_line e ++ nl ++
  match te_history e with Some h => render_history h | None => "" end.

(** The kind [Failed] of [trackable::error]. *)
Inductive FailedKind := Failed.

#[global] Instance ErrorKind_Failed : ErrorKind FailedKind := {
  kind_debug _ := "Failed"
}.

(** ** [derive_traits_for_trackable_error_newtype!] (src/macros.rs:377-434) *)

(** The newtype [$error] the macro is applied to: [struct $error(TrackableError<$kind>)]. *)
Record Error (K : Type) := Error_ { error_0 : TrackableError K }.
Arguments Error_ {K}.
Arguments error_0 {K}.

(** [impl Trackable for $error]: every operation forwards to [self.0];
    [history_mut] writes back through [self.0]. *)
#[global] Instance Trackable_Error {K} : Trackable Location (Error K) := {
  history e := history (error_0 e);
  history_mut e :=
    match history_mut (error_0 e) with
    | Some (h, put) => Some (h, fun h' => Error_ (put h'))
    | None => None
    end;
  enable_tracking e := Error_ (enable_tracking (error_0 e));
  disable_tracking e := Error_ (disable_tracking (error_0 e))
}.

(** [From<TrackableError<$kind>> for $error]. *)
Definition Error_from_inner {K} (f : TrackableError K) : Error K := Error_ f.
(** [From<$error> for TrackableError<$kind>]. *)
Definition inner_from_Error {K} (f : Error K) : TrackableError K := error_0 f.
(** [From<$kind> for $error]: [f.error().into()]. *)
Definition Error_from_kind {K} (f : K) : Error K := Error_from_inner (TrackableError_from_kind f).
(** [Display for $error]: [self.0.fmt(f)]. *)
Definition render_Error {K} `{ErrorKind K} (e : Error K) : string := render (error_0 e).

(** [trackable::error::Failure], a newtype of [TrackableError<Failed>]. *)
Definition Failure := Error FailedKind.

(** ** [track!] (src/macros.rs:38-67) *)

(** The call site of a macro: [module_path!()], [file!()], [line!()]. *)
Record Site := Site_mk { site_module : string; site_file : string; site_line : nat }.

(** The factory closure of [track!]: it builds the [Location] (and, through
    [msg], any formatted message); its state is the list of locations built. *)
Definition location_factory (site : Site) (msg : string) : St (list Location) Location :=
  fun built =>
    let location := Location_new (site_module site) (site_file site) (site_line site) msg in
    (location, (built ++ [location])%list).

(** [track!($target, $message)]. *)
Definition track_msg {T} `{Trackable Location T} (site : Site) (target : T) (msg : string)
  : St (list Location) T :=
  track target (location_factory site msg).

(** [track!($target)]: the message is [String::new()]. *)
Definition track0 {T} `{Trackable Location T} (site : Site) (target : T) : St (list Location) T :=
  track_msg site target "".

(** [track!($target, $($format_arg)+)]: [track!($target, format!(..))]. *)
Definition track_fmt {T} `{Trackable Location T} (site : Site) (target : T)
  (fmt : string) (args : list fmt_arg) : St (list Location) T :=
  track_msg site target (format fmt args).

(** A tracked value, ignoring the log of built locations. *)
Definition tracked {T} (m : St (list Location) T) : T := fst (m []).

(** ** Control flow of a macro inside the enclosing function *)

(** [Normal a]: the macro evaluates to [a]; [Return r]: the enclosing function
    returns [r]; [Panic msg]: the current thread panics with [msg]. *)
Inductive outcome (R A : Type) :=
| Normal (a : A)
| Return (r : R)
| Panic (msg : string).
Arguments Normal {R A}.
Arguments Return {R A}.
Arguments Panic {R A}.

Definition obind {R A B} (m : outcome R A) (k : A -> outcome R B) : outcome R B :=
  match m with
  | Normal a => k a
  | Return r => Return r
  | Panic msg => Panic msg
  end.

Notation "x <- m ;; k" := (obind m (fun x => k)) (at level 61, m at next level, right associativity).

(** A call of the enclosing function either completes with its result or aborts. *)
Inductive completion (R : Type) := Completed (r : R) | Aborted (msg : string).
Arguments Completed {R}.
Arguments Aborted {R}.

Definition run_fn {R} (body : outcome R R) : completion R :=
  match body with
  | Normal r => Completed r
  | Return r => Completed r
  | Panic msg => Aborted msg
  end.

(** ** [track_panic!] (src/macros.rs:287-306)

    The enclosing function returns [Result<T, F>]; [from] is [From::from]
    into [F]. *)

(** [track_panic!($error)], [$error] already converted by [TrackableError::from]. *)
Definition track_panic {K T F A} (from : TrackableError K -> F) (site : Site)
  (error : TrackableError K) : outcome (result T F) A :=
  let e := tracked (track0 site error) in
  Return (Err (from e)).

(** [track_panic!($error_kind, $message)]: [track_panic!($error_kind.cause($message))]. *)
Definition track_panic_msg {K T F A} (from : TrackableError K -> F) (site : Site)
  (error_kind : K) (msg : string) : outcome (result T F) A :=
  track_panic from site (kind_cause error_kind msg).

(** [track_panic!($error_kind, $($format_arg)+)]. *)
Definition track_panic_fmt {K T F A} (from : TrackableError K -> F) (site : Site)
  (error_kind : K) (fmt : string) (args : list fmt_arg) : outcome (result T F) A :=
  track_panic_msg from site error_kind (format fmt args).

(** ** Assertion macros (src/macros.rs:101-233) *)

(** [track_assert!($cond, $error_kind)]; [cond_text] is [stringify!($cond)]. *)
Definition track_assert {K T F} (from : TrackableError K -> F) (site : Site)
  (cond : bool) (cond_text : string) (error_kind : K) : outcome (result T F) unit :=
  if negb cond
  then track_panic_fmt from site error_kind "assertion failed: `{}`" [str_arg cond_text]
  else Normal tt.

(** [track_assert!($cond, $error_kind, $fmt, $args..)] (the [$fmt]-only arm
    is this one with no [$arg]). *)
Definition track_assert_fmt {K T F} (from : TrackableError K -> F) (site : Site)
  (cond : bool) (cond_text : string) (error_kind : K) (fmt : string) (args : list fmt_arg)
  : outcome (result T F) unit :=
  if negb cond
  then track_panic_fmt from site error_kind ("assertion failed: `{}`; " ++ fmt)
         (str_arg cond_text :: args)
  else Normal tt.

(** A value formatted only with [{:?}]: [left] and [right] of the equality
    assertions (their [Display] rendering is never requested). *)
Definition debug_arg (d : string) : fmt_arg := FmtArg d d.

Section Comparisons.
Context {A : Type} (eqb : A -> A -> bool) (debug : A -> string).

(** [track_assert_eq!($left, $right, $error_kind)]: [left == right] is [eqb]. *)
Definition track_assert_eq {K T F} (from : TrackableError K -> F) (site : Site)
  (left right : A) (error_kind : K) : outcome (result T F) unit :=
  track_assert_fmt from site (eqb left right) "left == right" error_kind
    "assertion failed: `(left == right)` (left: `{:?}`, right: `{:?}`)"
    [debug_arg (debug left); debug_arg (debug right)].

(** [track_assert_eq!($left, $right, $error_kind, $fmt, $args..)]. *)
Definition track_assert_eq_fmt {K T F} (from : TrackableError K -> F) (site : Site)
  (left right : A) (error_kind : K) (fmt : string) (args : list fmt_arg)
  : outcome (result T F) unit :=
  track_assert_fmt from site (eqb left right) "left == right" error_kind
    ("assertion failed: `(left == right)` (left: `{:?}`, right: `{:?}`): " ++ fmt)
    (debug_arg (debug left) :: debug_arg (debug right) :: args).

(** [track_assert_ne!($left, $right, $error_kind)]. *)
Definition track_assert_ne {K T F} (from : TrackableError K -> F) (site : Site)
  (left right : A) (error_kind : K) : outcome (result T F) unit :=
  track_assert_fmt from site (negb (eqb left right)) "left != right" error_kind
    "assertion failed: `(left != right)` (left: `{:?}`, right: `{:?}`)"
    [debug_arg (debug left); debug_arg (debug right)].

(** [track_assert_ne!($left, $right, $error_kind, $fmt, $args..)]. *)
Definition track_assert_ne_fmt {K T F} (from : TrackableError K -> F) (site : Site)
  (left right : A) (error_kind : K) (fmt : string) (args : list fmt_arg)
  : outcome (result T F) unit :=
  track_assert_fmt from site (negb (eqb left right)) "left != right" error_kind
    ("assertion failed: `(left != right)` (left: `{:?}`, right: `{:?}`): " ++ fmt)
    (debug_arg (debug left) :: debug_arg (debug right) :: args).

End Comparisons.

(** [track_assert_some!($expr, $error_kind)]; [expr_text] is [stringify!($expr)]. *)
Definition track_assert_some {K T F A} (from : TrackableError K -> F) (site : Site)
  (o : option A) (expr_text : string) (error_kind : K) : outcome (result T F) A :=
  match o with
  | Some v => Normal v
  | None => track_panic_fmt from site error_kind "assertion failed: `{}.is_some()`"
              [str_arg expr_text]
  end.

(** [track_assert_some!($expr, $error_kind, $fmt, $args..)]. *)
Definition track_assert_some_fmt {K T F A} (from : TrackableError K -> F) (site : Site)
  (o : option A) (expr_text : string) (error_kind : K) (fmt : string) (args : list fmt_arg)
  : outcome (result T F) A :=
  match o with
  | Some v => Normal v
  | None => track_panic_fmt from site error_kind
              ("assertion failed: `{}.is_some()`; " ++ fmt) (str_arg expr_text :: args)
  end.

(** ** [track_try_unwrap!] (src/macros.rs:331-344) *)

(** [track_try_unwrap!($expr, ..)]: [msg] is the message of the inner
    [track!] ([String::new()] for the one-argument arm); [expr_text] is
    [stringify!($expr)]; [display] is [Display for E]. *)
Definition track_try_unwrap_msg {T E R} `{Trackable Location E} (display : E -> string)
  (site : Site) (r : result T E) (expr_text : string) (msg : string)
  : St (list Location) (outcome R T) :=
  fun built =>
    let (r', built') := track_msg site r msg built in
    (match r' with
     | Err e => Panic (nl ++ "EXPRESSION: " ++ expr_text ++ nl ++ "ERROR: " ++ display e ++ nl)
     | Ok v => Normal v
     end, built').

Definition track_try_unwrap {T E R} `{Trackable Location E} (display : E -> string)
  (site : Site) (r : result T E) (expr_text : string) : St (list Location) (outcome R T) :=
  track_try_unwrap_msg display site r expr_text "".

(** ** The test [track_assert_works] (src/macros.rs:456-475) *)

(** [f32]: IEEE 754 binary32, the Standard Library's [spec_float] with a
    24-bit precision and a maximal exponent of 128. *)
Definition f32 := spec_float.
Definition f32_prec : Z := 24%Z.
Definition f32_emax : Z := 128%Z.

(** The [f32] literal of an integer ([3.0], [-2.0], ...). *)
Definition f32_of_Z (z : Z) : f32 := binary_normalize f32_prec f32_emax z 0%Z false.

(** [0.0]. *)
Definition f32_zero : f32 := S754_zero false.

(** [a > b] on [f32]: IEEE comparison, false when either side is NaN. *)
Definition f32_gt (a b : f32) : bool := SFltb b a.

(** [a + b] on [f32], rounded to nearest, ties to even. *)
Definition f32_add (a b : f32) : f32 := SFadd f32_prec f32_emax a b.

Definition site_458 : Site := Site_mk "trackable::macros::test" "src/macros.rs" 458.

Definition add_positive_f32 (a b : f32) : completion (result f32 Failure) :=
  run_fn (
    _ <- track_assert Error_from_inner site_458
           (f32_gt a f32_zero && f32_gt b f32_zero) "a > 0.0 && b > 0.0" Failed ;;
    Normal (Ok (f32_add a b))).

(** The error [add_positive_f32] returns when its assertion fails. *)
Definition add_positive_f32_error : Failure :=
  Error_from_inner (TrackableError_mk Failed (Some "assertion failed: `a > 0.0 && b > 0.0`")
    (Some (History_mk [Location_new "trackable::macros::test" "src/macros.rs" 458 ""] true))).

(** ** Auxiliary lemmas *)

Lemma string_app_assoc (a b c : string) : (a ++ b) ++ c = a ++ (b ++ c).
Proof. induction a as [|x a IH]; simpl; [reflexivity | now rewrite IH]. Qed.

Lemma string_app_nil_r (a : string) : a ++ "" = a.
Proof. induction a as [|x a IH]; simpl; [reflexivity | now rewrite IH]. Qed.

Ltac string_eq :=
  repeat (progress (cbn -[string_of_nat]) || rewrite string_app_assoc);
  rewrite ?string_app_nil_r; reflexivity.

(** The cases of the provided method [track]. *)
Lemma track_none {Ev T S} `{Trackable Ev T} (x : T) (f : St S Ev) (s : S) :
  history_mut x = None -> track x f s = (x, s).
Proof. intros Hx. unfold track. now rewrite Hx. Qed.

Lemma track_disabled {Ev T S} `{Trackable Ev T} (x : T) (f : St S Ev) (s : S) h put :
  history_mut x = Some (h, put) -> enabled h = false -> track x f s = (x, s).
Proof. intros Hx Hen. unfold track. now rewrite Hx, Hen. Qed.

Lemma track_enabled {Ev T S} `{Trackable Ev T} (x : T) (f : St S Ev) (s : S) h put :
  history_mut x = Some (h, put) -> enabled h = true ->
  track x f s = (put (add h (fst (f s))), snd (f s)).
Proof. intros Hx Hen. unfold track. rewrite Hx, Hen. now destruct (f s). Qed.

(** Tracking through [Err] and [Some] is tracking the contained value. *)
Lemma track_err {Ev E S} `{Trackable Ev E} T (e : E) (f : St S Ev) (s : S) :
  track (Err e : result T E) f s = let (e', s') := track e f s in (Err e', s').
Proof.
  unfold track. cbn.
  destruct (history_mut e) as [[h put]|]; [|reflexivity].
  destruct (enabled h); [|reflexivity]. now destruct (f s).
Qed.

Lemma track_some {Ev E S} `{Trackable Ev E} (e : E) (f : St S Ev) (s : S) :
  track (Some e) f s = let (e', s') := track e f s in (Some e', s').
Proof.
  unfold track. cbn.
  destruct (history_mut e) as [[h put]|]; [|reflexivity].
  destruct (enabled h); [|reflexivity]. now destruct (f s).
Qed.

(** ** C1: [track] and the laziness of the [track!] factory *)

(** C1: [track] returns its target unchanged, without running the factory,
    when the history is absent or disabled; when it is present and enabled the
    factory runs exactly once and its event is appended.  For [track!] the
    factory is the closure building the [Location], so on the absent or
    disabled path no location is built, and on the enabled path exactly one. *)
Theorem track_lazy_factory :
  (forall Ev T S (I : Trackable Ev T) (x : T) (f : St S Ev) (s : S),
     (history_mut x = None -> track x f s = (x, s)) /\
     (forall h put, history_mut x = Some (h, put) -> enabled h = false ->
        track x f s = (x, s)) /\
     (forall h put, history_mut x = Some (h, put) -> enabled h = true ->
        track x f s = (put (add h (fst (f s))), snd (f s)))) /\
  (forall T (I : Trackable Location T) (x : T) site msg built,
     ((history_mut x = None \/
       exists h put, history_mut x = Some (h, put) /\ enabled h = false) ->
      track_msg site x msg built = (x, built)) /\
     (forall h put, history_mut x = Some (h, put) -> enabled h = true ->
      let location := Location_new (site_module site) (site_file site) (site_line site) msg in
      track_msg site x msg built = (put (add h location), (built ++ [location])%list))).
Proof.
  split.
  - intros Ev T S I x f s. split; [|split].
    + apply track_none.
    + intros h put. apply track_disabled.
    + intros h put. apply track_enabled.
  - intros T I x site msg built. split.
    + intros [Hx | (h & put & Hx & Hen)]; unfold track_msg.
      * now apply track_none.
      * now apply (track_disabled _ _ _ h put).
    + intros h put Hx Hen. unfold track_msg.
      now rewrite (track_enabled _ _ _ h put Hx Hen).
Qed.

Definition disabled_error : TrackableError FailedKind :=
  TrackableError_mk Failed None (Some (History_mk [] false)).

Lemma track_lazy_factory_witness :
  track_msg site_458 disabled_error "note" [] = (disabled_error, []).
Proof.
  apply (proj1 (proj2 track_lazy_factory _ _ disabled_error site_458 "note" [])).
  right. exists (History_mk [] false).
  eexists. split; reflexivity.
Defined.

(** ** C2: the test [track_assert_works] *)

(** C2: [add_positive_f32(a, b)] returns [Ok(a + b)] when [a > 0.0 && b > 0.0]
    holds and otherwise the assertion failure, whose rendering contains
    [assertion failed: `a > 0.0 && b > 0.0`] and whose history holds exactly
    one event, the location of the assertion; in particular
    [add_positive_f32(3.0, 2.0)] is [Ok(5.0)] and [add_positive_f32(1.0, -2.0)]
    is that failure. *)
Theorem add_positive_f32_scenario :
  (forall a b, f32_gt a f32_zero && f32_gt b f32_zero = true ->
     add_positive_f32 a b = Completed (Ok (f32_add a b))) /\
  (forall a b, f32_gt a f32_zero && f32_gt b f32_zero = false ->
     add_positive_f32 a b = Completed (Err add_positive_f32_error)) /\
  contains (render_Error add_positive_f32_error) "assertion failed: `a > 0.0 && b > 0.0`" /\
  (exists h, history add_positive_f32_error = Some h /\ length (events h) = 1%nat /\
     events h = [Location_new "trackable::macros::test" "src/macros.rs" 458 ""]) /\
  add_positive_f32 (f32_of_Z 3) (f32_of_Z 2) = Completed (Ok (f32_of_Z 5)) /\
  add_positive_f32 (f32_of_Z 1) (f32_of_Z (-2)) = Completed (Err add_positive_f32_error).
Proof.
  split; [|split; [|split; [|split; [|split]]]].
  - intros a b Hpos. unfold add_positive_f32, track_assert. now rewrite Hpos.
  - intros a b Hneg. unfold add_positive_f32, track_assert. now rewrite Hneg.
  - exists "Failed (cause; ",
      (")" ++ nl ++ "HISTORY:" ++ nl ++ "  [0] at src/macros.rs:458" ++ nl).
    reflexivity.
  - eexists. split; [reflexivity|]. split; reflexivity.
  - vm_compute. reflexivity.
  - vm_compute. reflexivity.
Qed.

Lemma add_positive_f32_scenario_witness :
  add_positive_f32 (f32_of_Z 3) (f32_of_Z 2) = Completed (Ok (f32_add (f32_of_Z 3) (f32_of_Z 2))) /\
  add_positive_f32 (f32_of_Z (-1)) (f32_of_Z 2) = Completed (Err add_positive_f32_error).
Proof.
  split.
  - apply (proj1 add_positive_f32_scenario). vm_compute. reflexivity.
  - apply (proj1 (proj2 add_positive_f32_scenario)). vm_compute. reflexivity.
Defined.

(** ** C3: delegation through [Result] and [Option] *)

(** C3: tracking [Ok v] or [None] leaves it unchanged and runs no factory;
    tracking [Err e] or [Some e] is tracking [e] and rewrapping it; hence
    [track!] keeps [Ok]/[Err] and the [Ok] payload. *)
Theorem track_result_option_delegation :
  forall Ev E S (I : Trackable Ev E) (f : St S Ev) (s : S),
    (forall T (v : T), track (Ok v : result T E) f s = (Ok v, s)) /\
    (forall T (e : E),
       track (Err e : result T E) f s = let (e', s') := track e f s in (Err e', s')) /\
    track (None : option E) f s = (None, s) /\
    (forall e : E, track (Some e) f s = let (e', s') := track e f s in (Some e', s')) /\
    (forall T (r : result T E),
       match r, fst (track r f s) with
       | Ok v, Ok v' => v' = v
       | Err _, Err _ => True
       | _, _ => False
       end).
Proof.
  intros Ev E S I f s.
  split; [reflexivity|]. split; [intros T e; apply track_err|].
  split; [reflexivity|]. split; [intros e; apply track_some|].
  intros T [v|e]; [reflexivity|].
  rewrite track_err. now destruct (track e f s).
Qed.

(** ** C4: the rendering of the [track!] documentation example *)

Definition doc_example (mp file : string) (l1 l2 l3 : nat) : option (result unit (TrackableError FailedKind)) :=
  let e := kind_cause Failed "something wrong" in
  let e := tracked (track0 (Site_mk mp file l1) e) in
  let e : result unit (TrackableError FailedKind) := Err e in
  let e := tracked (track_msg (Site_mk mp file l2) e "This is a note about this location") in
  let e := Some e in
  tracked (track_fmt (Site_mk mp file l3) e "Hello {}" [str_arg "World!"]).

(** C4: the example renders as the kind line [Failed (cause; something wrong)]
    and a [HISTORY:] block listing the three events in order, with the
    [ -- <message>] suffix only for the two non-empty notes; with no history or
    an empty one, the rendering is the kind line alone. *)
Theorem doc_example_rendering :
  (forall mp file l1 l2 l3,
     match doc_example mp file l1 l2 l3 with
     | Some (Err e) =>
         render e =
           "Failed (cause; something wrong)" ++ nl ++
           "HISTORY:" ++ nl ++
           "  [0] at " ++ file ++ ":" ++ string_of_nat l1 ++ nl ++
           "  [1] at " ++ file ++ ":" ++ string_of_nat l2 ++
             " -- This is a note about this location" ++ nl ++
           "  [2] at " ++ file ++ ":" ++ string_of_nat l3 ++ " -- Hello World!" ++ nl
     | _ => False
     end) /\
  (forall K (EK : ErrorKind K) (e : TrackableError K),
     (te_history e = None \/ exists en, te_history e = Some (History_mk [] en)) ->
     render e = kind_line e ++ nl).
Proof.
  split.
  - intros mp file l1 l2 l3. cbn -[string_of_nat].
    change (string_of_nat 0) with "0"; change (string_of_nat 1) with "1";
      change (string_of_nat 2) with "2".
    string_eq.
  - intros K EK e [Hh | [en Hh]]; unfold render; rewrite Hh.
    + now rewrite <- string_app_assoc, string_app_nil_r.
    + unfold render_history. cbn [events].
      now rewrite <- string_app_assoc, string_app_nil_r.
Qed.

Lemma doc_example_rendering_witness :
  render (TrackableError_mk Failed (Some "x") None) = "Failed (cause; x)" ++ nl.
Proof. apply (proj2 doc_example_rendering). left. reflexivity. Defined.

(** ** C5: [track_try_unwrap!] *)

(** C5: on [Err e], [track_try_unwrap!] always panics, with a message holding
    [stringify!($expr)] and the full [Display] rendering of the error after
    the macro has tracked it; on [Ok v] it evaluates to [v] and builds no
    location. *)
Theorem track_try_unwrap_spec :
  forall T E R (I : Trackable Location E) (display : E -> string) site
         expr_text msg (built : list Location),
    (forall e : E,
       track_try_unwrap_msg (R:=R) display site (Err e : result T E) expr_text msg built =
       let (e', built') := track_msg site e msg built in
       (Panic (nl ++ "EXPRESSION: " ++ expr_text ++ nl ++ "ERROR: " ++ display e' ++ nl),
        built')) /\
    (forall v : T,
       track_try_unwrap_msg (R:=R) display site (Ok v : result T E) expr_text msg built =
       (Normal v, built)).
Proof.
  intros T E R I display site expr_text msg built. split.
  - intros e. unfold track_try_unwrap_msg.
    unfold track_msg at 1. rewrite track_err. fold (track_msg site e msg built).
    now destruct (track_msg site e msg built).
  - intros v. reflexivity.
Qed.

(** ** C6: the message of [track_assert_eq!] *)

(** C6: for unequal operands, [track_assert_eq!] makes the enclosing function
    return an [Err] whose cause message holds [left == right] and the [Debug]
    renderings of both operands. *)
Theorem track_assert_eq_message :
  forall A (eqb : A -> A -> bool) (debug : A -> string) K T F
         (from : TrackableError K -> F) site (left right : A) (error_kind : K),
    eqb left right = false ->
    exists e msg,
      track_assert_eq (T:=T) eqb debug from site left right error_kind = Return (Err (from e)) /\
      cause e = Some msg /\
      msg = "assertion failed: `left == right`; assertion failed: `(left == right)` (left: `"
            ++ debug left ++ "`, right: `" ++ debug right ++ "`)" /\
      contains msg "left == right" /\
      contains msg (debug left) /\
      contains msg (debug right).
Proof.
  intros A eqb debug K T F from site left right error_kind Hne.
  unfold track_assert_eq, track_assert_fmt. rewrite Hne. cbn [negb].
  eexists. eexists. split; [reflexivity|]. split; [reflexivity|]. split.
  { string_eq. }
  split; [|split].
  - exists "assertion failed: `", ("`; assertion failed: `(left == right)` (left: `"
            ++ debug left ++ "`, right: `" ++ debug right ++ "`)").
    string_eq.
  - exists "assertion failed: `left == right`; assertion failed: `(left == right)` (left: `",
      ("`, right: `" ++ debug right ++ "`)").
    string_eq.
  - exists ("assertion failed: `left == right`; assertion failed: `(left == right)` (left: `"
            ++ debug left ++ "`, right: `"), "`)".
    string_eq.
Qed.

Lemma track_assert_eq_message_witness :
  exists e msg,
    track_assert_eq (T:=unit) Nat.eqb string_of_nat Error_from_inner site_458 1%nat 2%nat Failed
      = Return (Err (Error_from_inner e)) /\
    cause e = Some msg /\
    msg = "assertion failed: `left == right`; assertion failed: `(left == right)` (left: `"
          ++ string_of_nat 1%nat ++ "`, right: `" ++ string_of_nat 2%nat ++ "`)" /\
    contains msg "left == right" /\
    contains msg (string_of_nat 1%nat) /\
    contains msg (string_of_nat 2%nat).
Proof. apply track_assert_eq_message. reflexivity. Defined.

(** ** C7: only [track_try_unwrap!] panics *)

(** The macro either evaluates normally or makes the enclosing function
    return an [Err]; it never panics. *)
Definition no_abort {T F A} (o : outcome (result T F) A) : Prop :=
  match o with
  | Normal _ => True
  | Return (Err _) => True
  | Return (Ok _) => False
  | Panic _ => False
  end.

Ltac no_abort_cases :=
  repeat match goal with
         | |- context [if ?b then _ else _] => destruct b
         | |- context [match ?o with Some _ => _ | None => _ end] => destruct o
         end; exact I.

(** C7: every arm of [track_panic!], [track_assert!], [track_assert_eq!],
    [track_assert_ne!] and [track_assert_some!] either lets execution go on or
    returns an [Err] from the enclosing function, and never panics, whatever
    the condition; [track_try_unwrap!] panics on every [Err]. *)
Theorem assertion_macros_never_panic :
  forall K T F A (from : TrackableError K -> F) site (error_kind : K)
         (e : TrackableError K) (msg fmt cond_text expr_text : string)
         (args : list fmt_arg) (cond : bool)
         B (eqb : B -> B -> bool) (debug : B -> string) (left right : B)
         (o : option A),
    no_abort (track_panic (T:=T) (A:=A) from site e) /\
    no_abort (track_panic_msg (T:=T) (A:=A) from site error_kind msg) /\
    no_abort (track_panic_fmt (T:=T) (A:=A) from site error_kind fmt args) /\
    no_abort (track_assert (T:=T) from site cond cond_text error_kind) /\
    no_abort (track_assert_fmt (T:=T) from site cond cond_text error_kind fmt args) /\
    no_abort (track_assert_eq (T:=T) eqb debug from site left right error_kind) /\
    no_abort (track_assert_eq_fmt (T:=T) eqb debug from site left right error_kind fmt args) /\
    no_abort (track_assert_ne (T:=T) eqb debug from site left right error_kind) /\
    no_abort (track_assert_ne_fmt (T:=T) eqb debug from site left right error_kind fmt args) /\
    no_abort (track_assert_some (T:=T) from site o expr_text error_kind) /\
    no_abort (track_assert_some_fmt (T:=T) from site o expr_text error_kind fmt args) /\
    (forall E R (I : Trackable Location E) (display : E -> string) (err : E) built,
       exists m, fst (track_try_unwrap_msg (T:=T) (R:=R) display site (Err err)
                        expr_text msg built) = Panic m).
Proof.
  intros.
  split; [|split]; [| |split]; [| | |split]; [| | | |split]; [| | | | |split];
    [| | | | | |split]; [| | | | | | |split]; [| | | | | | | |split];
    [| | | | | | | | |split]; [| | | | | | | | | |split];
    unfold track_assert_eq, track_assert_eq_fmt, track_assert_ne, track_assert_ne_fmt,
      track_assert_some, track_assert_some_fmt, track_assert, track_assert_fmt,
      track_panic_fmt, track_panic_msg, track_panic;
    try no_abort_cases.
  intros E R I display err built. unfold track_try_unwrap_msg, track_msg.
  rewrite track_err. destruct (track err _ built). eexists. reflexivity.
Qed.

(** ** C8: an absent history stays absent *)

(** The operations a caller can apply to a trackable value. *)
Inductive op := OpEnable | OpDisable | OpTrack (site : Site) (msg : string).

Fixpoint apply_ops {T} `{Trackable Location T} (ops : list op) (x : T) : T :=
  match ops with
  | [] => x
  | OpEnable :: ops' => apply_ops ops' (enable_tracking x)
  | OpDisable :: ops' => apply_ops ops' (disable_tracking x)
  | OpTrack site msg :: ops' => apply_ops ops' (tracked (track_msg site x msg))
  end.

Lemma history_none_ops {K} (ops : list op) (e : TrackableError K) :
  te_history e = None -> te_history (apply_ops ops e) = None.
Proof.
  revert e. induction ops as [|[| |site msg] ops IH]; intros e He; cbn [apply_ops].
  - exact He.
  - apply IH. cbn. now rewrite He.
  - apply IH. cbn. now rewrite He.
  - apply IH. unfold tracked, track_msg. rewrite track_none; [exact He|].
    cbn. now rewrite He.
Qed.

Lemma Error_history_none_ops {K} (ops : list op) (e : TrackableError K) :
  te_history e = None -> history (apply_ops ops (Error_from_inner e)) = None.
Proof.
  revert e. induction ops as [|[| |site msg] ops IH]; intros e He; cbn [apply_ops].
  - exact He.
  - apply (IH (enable_tracking e)). cbn. now rewrite He.
  - apply (IH (disable_tracking e)). cbn. now rewrite He.
  - unfold tracked, track_msg. rewrite track_none.
    + now apply IH.
    + cbn. now rewrite He.
Qed.

(** C8: for a [TrackableError] (or its derived newtype) without history,
    [enable_tracking] and [disable_tracking] keep the history absent and
    [track] leaves the value unchanged; so no sequence of operations creates a
    history. *)
Theorem absent_history_stays_absent :
  forall K (e : TrackableError K),
    te_history e = None ->
    te_history (enable_tracking e) = None /\
    te_history (disable_tracking e) = None /\
    (forall S (f : St S Location) s, track e f s = (e, s)) /\
    history (enable_tracking (Error_from_inner e)) = None /\
    history (disable_tracking (Error_from_inner e)) = None /\
    (forall S (f : St S Location) s,
       track (Error_from_inner e) f s = (Error_from_inner e, s)) /\
    (forall ops, te_history (apply_ops ops e) = None /\
                 history (apply_ops ops (Error_from_inner e)) = None).
Proof.
  intros K e He.
  split; [cbn; now rewrite He|]. split; [cbn; now rewrite He|].
  split; [intros; apply track_none; cbn; now rewrite He|].
  split; [cbn; now rewrite He|]. split; [cbn; now rewrite He|].
  split; [intros; apply track_none; cbn; now rewrite He|].
  intros ops. split; [now apply history_none_ops | now apply Error_history_none_ops].
Qed.

Lemma absent_history_stays_absent_witness :
  te_history (enable_tracking (TrackableError_mk Failed None None)) = None.
Proof.
  apply (absent_history_stays_absent FailedKind (TrackableError_mk Failed None None)).
  reflexivity.
Defined.

(** ** C9: the derived newtype forwards every operation *)

(** C9: the two [From] conversions between a newtype and its inner
    [TrackableError] are inverse, and each [Trackable] operation on the
    newtype, [track] included, is the operation on the inner value, rewrapped. *)
Theorem newtype_forwarding :
  forall K (f : TrackableError K) (n : Error K),
    inner_from_Error (Error_from_inner f) = f /\
    Error_from_inner (inner_from_Error n) = n /\
    enable_tracking n = Error_from_inner (enable_tracking (inner_from_Error n)) /\
    disable_tracking n = Error_from_inner (disable_tracking (inner_from_Error n)) /\
    history n = history (inner_from_Error n) /\
    history_mut n =
      option_map (fun '(h, put) => (h, fun h' => Error_from_inner (put h')))
                 (history_mut (inner_from_Error n)) /\
    (forall S (g : St S Location) s,
       track n g s =
       let (x, s') := track (inner_from_Error n) g s in (Error_from_inner x, s')).
Proof.
  intros K f [inner].
  split; [reflexivity|]. split; [reflexivity|]. split; [reflexivity|].
  split; [reflexivity|]. split; [reflexivity|].
  split.
  - cbn. now destruct (te_history inner).
  - intros S g s. unfold track. cbn.
    destruct (te_history inner) as [h|]; [|reflexivity].
    destruct (enabled h); [|reflexivity]. now destruct (g s).
Qed.

(** ** C10: the error built by [track_panic!] *)

(** C10: [track_panic!(k, m)] returns [Err] of [TrackableError::from(k.cause(m))]
    tracked once at the panic site with an empty note, rendering as
    [<Kind> (cause; <m>)] and a one-event [HISTORY:] block; the formatting
    arm passes [format!(..)] as [m]; [track_panic!(k)] builds an error
    without cause, whose kind line is the bare kind. *)
Theorem track_panic_error_shape :
  forall K (EK : ErrorKind K) T F A (from : TrackableError K -> F) site (k : K) (m : string),
    let loc := Location_new (site_module site) (site_file site) (site_line site) "" in
    let e1 := TrackableError_mk k (Some m) (Some (History_mk [loc] true)) in
    let e0 := TrackableError_mk k None (Some (History_mk [loc] true)) in
    let block := "HISTORY:" ++ nl ++ "  [0] at " ++ site_file site ++ ":" ++
                 string_of_nat (site_line site) ++ nl in
    track_panic_msg (T:=T) (A:=A) from site k m = Return (Err (from e1)) /\
    render e1 = kind_debug k ++ " (cause; " ++ m ++ ")" ++ nl ++ block /\
    (forall fmt args,
       track_panic_fmt (T:=T) (A:=A) from site k fmt args =
       track_panic_msg from site k (format fmt args)) /\
    track_panic (T:=T) (A:=A) from site (TrackableError_from_kind k) = Return (Err (from e0)) /\
    render e0 = kind_debug k ++ nl ++ block.
Proof.
  intros K EK T F A from site k m loc e1 e0 block.
  split; [reflexivity|]. split.
  - subst e1 block loc. unfold render, kind_line, render_history. cbn -[string_of_nat].
    change (string_of_nat 0) with "0". string_eq.
  - split; [reflexivity|]. split; [reflexivity|].
    subst e0 block loc. unfold render, kind_line, render_history. cbn -[string_of_nat].
    change (string_of_nat 0) with "0". string_eq.
Qed.

(** * Further properties of the macros *)

(** The error [track_panic!] builds for kind [k] and message [msg] at [site]:
    the message as cause and one event with an empty note. *)
Definition site_error {K} (site : Site) (k : K) (msg : string) : TrackableError K :=
  TrackableError_mk k (Some msg)
    (Some (History_mk [Location_new (site_module site) (site_file site) (site_line site) ""] true)).

(** [track_assert!(cond, kind); rest]: [rest] runs exactly when [cond]
    holds; otherwise the function returns the assertion error and [rest]
    never runs. *)
Theorem track_assert_then :
  forall K T F B (from : TrackableError K -> F) site cond cond_text (k : K)
         (rest : outcome (result T F) B),
    (_ <- track_assert from site cond cond_text k ;; rest) =
    if cond then rest
    else Return (Err (from (site_error site k ("assertion failed: `" ++ cond_text ++ "`")))).
Proof.
  intros. unfold track_assert. destruct cond; cbn [negb obind]; [reflexivity|].
  unfold track_panic_fmt, track_panic_msg, track_panic, site_error. cbn -[string_of_nat].
  first [reflexivity | string_eq].
Qed.

(** [track_assert!(cond, kind, fmt, args..)] that fails: the cause is the
    condition text followed by the caller's format string formatted with
    [stringify!(cond)] in front of the caller's arguments, the first implicit
    position already taken; so an explicit position [{0}] of the caller names
    the condition text.  The note of the single event stays empty. *)
Theorem track_assert_fmt_failure :
  (forall K T F (from : TrackableError K -> F) site cond_text (k : K) fmt args,
    track_assert_fmt (T:=T) from site false cond_text k fmt args =
    Return (Err (from (site_error site k
      ("assertion failed: `" ++ cond_text ++ "`; " ++
       format_from 1 fmt (str_arg cond_text :: args)))))) /\
  (forall T F (from : TrackableError FailedKind -> F) site,
    track_assert_fmt (T:=T) from site false "false" Failed "{} {0}" [str_arg "7"] =
    Return (Err (from (site_error site Failed "assertion failed: `false`; 7 false")))).
Proof.
  split.
  - intros. unfold track_assert_fmt, track_panic_fmt, track_panic_msg, track_panic,
      site_error, format, format_from.
    cbn -[string_of_nat]. first [reflexivity | string_eq].
  - intros. reflexivity.
Qed.

(** [track_assert_eq!] lets execution continue exactly when the operands
    compare equal, [track_assert_ne!] exactly when they do not. *)
Theorem track_assert_eq_ne_continue :
  forall A (eqb : A -> A -> bool) (debug : A -> string) K T F
         (from : TrackableError K -> F) site (left right : A) (k : K),
    (track_assert_eq (T:=T) eqb debug from site left right k = Normal tt <->
     eqb left right = true) /\
    (track_assert_ne (T:=T) eqb debug from site left right k = Normal tt <->
     eqb left right = false).
Proof.
  intros. unfold track_assert_eq, track_assert_ne, track_assert_fmt.
  destruct (eqb left right); cbn [negb]; split; split; intros H;
    solve [reflexivity | discriminate].
Qed.

(** [track_assert_ne!] on equal operands returns an error whose cause names
    [left != right] and holds the [Debug] forms of both operands. *)
Theorem track_assert_ne_failure :
  forall A (eqb : A -> A -> bool) (debug : A -> string) K T F
         (from : TrackableError K -> F) site (left right : A) (k : K),
    eqb left right = true ->
    track_assert_ne (T:=T) eqb debug from site left right k =
    Return (Err (from (site_error site k
      ("assertion failed: `left != right`; assertion failed: `(left != right)` (left: `"
       ++ debug left ++ "`, right: `" ++ debug right ++ "`)")))).
Proof.
  intros A eqb debug K T F from site left right k Heq.
  unfold track_assert_ne, track_assert_fmt. rewrite Heq. cbn [negb].
  unfold track_panic_fmt, track_panic_msg, track_panic, site_error.
  cbn -[string_of_nat]. first [reflexivity | string_eq].
Qed.

Lemma track_assert_ne_failure_witness :
  track_assert_ne (T:=unit) Nat.eqb string_of_nat Error_from_inner site_458 4%nat 4%nat Failed =
  Return (Err (Error_from_inner (site_error site_458 Failed
    ("assertion failed: `left != right`; assertion failed: `(left != right)` (left: `"
     ++ string_of_nat 4 ++ "`, right: `" ++ string_of_nat 4 ++ "`)")))).
Proof. apply track_assert_ne_failure. reflexivity. Defined.



(** [track_assert_some!]: [Some v] evaluates to [v]; [None] returns an error
    whose cause is [assertion failed: `<expr>.is_some()`], followed by the
    caller's format string in the formatted arm, formatted with
    [stringify!($expr)] at position 0 in front of the caller's arguments. *)
Theorem track_assert_some_cases :
  forall K T F A (from : TrackableError K -> F) site expr_text (k : K) fmt args,
    (forall v : A,
       track_assert_some (T:=T) from site (Some v) expr_text k = Normal v /\
       track_assert_some_fmt (T:=T) from site (Some v) expr_text k fmt args = Normal v) /\
    track_assert_some (T:=T) (A:=A) from site None expr_text k =
      Return (Err (from (site_error site k
        ("assertion failed: `" ++ expr_text ++ ".is_some()`")))) /\
    track_assert_some_fmt (T:=T) (A:=A) from site None expr_text k fmt args =
      Return (Err (from (site_error site k
        ("assertion failed: `" ++ expr_text ++ ".is_some()`; " ++
         format_from 1 fmt (str_arg expr_text :: args))))).
Proof.
  intros. split; [intros v; split; reflexivity|].
  unfold track_assert_some, track_assert_some_fmt, track_panic_fmt, track_panic_msg,
    track_panic, site_error.
  unfold format, format_from.
  split; cbn -[string_of_nat]; first [reflexivity | string_eq].
Qed.

(** ** The documentation example of [track_assert_some!] (src/macros.rs:195-209) *)

(** [u32::checked_sub]; [u32] values are modelled by [nat]. *)
Definition checked_sub (a b : nat) : option nat :=
  if Nat.leb b a then Some (a - b)%nat else None.

(** The doctest's call site: line 9 of the example in [src/macros.rs]. *)
Definition site_doc_9 : Site := Site_mk "rust_out" "src/macros.rs" 9.

Definition trackable_checked_sub (a b : nat) : completion (result nat Failure) :=
  run_fn (
    n <- track_assert_some Error_from_inner site_doc_9 (checked_sub a b) "a.checked_sub(b)" Failed ;;
    Normal (Ok n)).

(** [trackable_checked_sub(a, b)] is [Ok(a - b)] when [b <= a]; otherwise an
    [Err] rendering as the documented text, with its single history entry. *)
Theorem trackable_checked_sub_spec :
  forall a b : nat,
    ((b <= a)%nat -> trackable_checked_sub a b = Completed (Ok (a - b)%nat)) /\
    ((a < b)%nat -> exists f,
       trackable_checked_sub a b = Completed (Err f) /\
       render_Error f =
         "Failed (cause; assertion failed: `a.checked_sub(b).is_some()`)" ++ nl ++
         "HISTORY:" ++ nl ++
         "  [0] at src/macros.rs:9" ++ nl).
Proof.
  intros a b. unfold trackable_checked_sub, checked_sub. split.
  - intros Hle. apply Nat.leb_le in Hle. now rewrite Hle.
  - intros Hlt. assert (Hb : Nat.leb b a = false) by (apply Nat.leb_gt; exact Hlt).
    rewrite Hb. eexists. split; reflexivity.
Qed.

Lemma trackable_checked_sub_spec_witness :
  trackable_checked_sub 10 2 = Completed (Ok 8%nat) /\
  exists f,
    trackable_checked_sub 2 10 = Completed (Err f) /\
    render_Error f =
      "Failed (cause; assertion failed: `a.checked_sub(b).is_some()`)" ++ nl ++
      "HISTORY:" ++ nl ++ "  [0] at src/macros.rs:9" ++ nl.
Proof.
  split.
  - apply (proj1 (trackable_checked_sub_spec 10 2)). lia.
  - apply (proj2 (trackable_checked_sub_spec 2 10)). lia.
Defined.

(** ** The test [track_works] (src/macros.rs:441-453) *)

(** The [?] operator in a function returning [Result<_, F>]. *)
Definition question {A E T F} (from : E -> F) (r : result A E) : outcome (result T F) A :=
  match r with
  | Ok v => Normal v
  | Err e => Return (Err (from e))
  end.

Definition site_line_at (n : nat) : Site := Site_mk "trackable::macros::test" "src/macros.rs" n.

(** [foo] of [track_works]; [bar.clone()] is [bar], [baz.qux] is [0usize],
    [From<Failure> for Failure] is the identity. *)
Definition foo (bar : result unit Failure) : completion (result unit Failure) :=
  run_fn (
    _ <- question id (tracked (track0 (site_line_at 447) bar)) ;;
    _ <- question id (tracked (track_msg (site_line_at 448) bar "hello")) ;;
    _ <- question id (tracked (track_fmt (site_line_at 449) bar "baz.qux={}"
                                 [str_arg (string_of_nat 0)])) ;;
    Normal (Ok tt)).

(** [foo(Ok(()))] is [Ok(())]; [foo(Err(e))] returns at the first [?] the
    error tracked once, at line 447: the two later [track!] never run. *)
Theorem foo_spec :
  foo (Ok tt) = Completed (Ok tt) /\
  forall e : Failure, foo (Err e) = Completed (Err (tracked (track0 (site_line_at 447) e))).
Proof.
  split; [reflexivity|]. intros e.
  unfold foo, tracked, track0, track_msg at 1. rewrite track_err.
  unfold track_msg.
  now destruct (track e (location_factory (site_line_at 447) "") []).
Qed.
